(** * SignSpeak model server: the [/predict] and [/health] handlers

    A shallow embedding of [src/ml/model_server.py].  The two Flask handlers
    are translated statement by statement.  The libraries they call are
    modelled as far as the handlers observe them:

    - JSON values are the Python objects [json] produces (None, bool, int,
      float, str, list, dict);
    - floats are IEEE-754 values in the representation of [SpecFloat];
      float32 scores keep their 24-bit canonical mantissa, and the widening
      [float(...)] of a float32 is exact, hence the identity on values;
    - a NumPy array is its shape together with its elements in row-major
      order;
    - Python exceptions are values carried by an error monad, the
      [try ... except Exception] of [predict] is its handler;
    - [print] appends to the standard output held in the state, and every
      call of [model.predict] is recorded there as well. *)

From Stdlib Require Import List String Ascii Bool Arith ZArith Lia.
From Stdlib Require Import Floats.SpecFloat.
From Stdlib Require Import Numbers.DecimalString Numbers.DecimalNat.
Import ListNotations.

Local Open Scope string_scope.
Local Open Scope list_scope.

Set Warnings "-register-all".

(** ** Python values *)

(** IEEE-754 values; [float32] and [float] share the representation. *)
Definition float := spec_float.

(** The objects Python's [json] module produces and [jsonify] consumes.  A
    dict is kept as its items in insertion order (keys pairwise distinct). *)
Inductive json : Type :=
| JNull
| JBool (b : bool)
| JInt (n : Z)
| JNum (x : float)
| JStr (s : string)
| JArr (xs : list json)
| JObj (items : list (string * json)).

(** The instances of [Exception], the ones [except Exception] catches, by
    class; [str_exn] is Python's [str(e)]. *)
Inductive exn : Type :=
| KeyError (key : string)
| TypeError (msg : string)
| ValueError (msg : string)
| IndexError (msg : string)
| Exception (cls : string) (msg : string).

(** [str(KeyError(k))] is [repr(k)]; the other classes print their message. *)
Definition str_exn (e : exn) : string :=
  match e with
  | KeyError key => "'" ++ key ++ "'"
  | TypeError msg | ValueError msg | IndexError msg => msg
  | Exception _ msg => msg
  end.

Inductive result (A : Type) : Type :=
| OK (a : A)
| Raise (e : exn).
Arguments OK {A} a.
Arguments Raise {A} e.

(** [str(n)] for a non-negative Python int. *)
Definition str_int (n : nat) : string :=
  NilEmpty.string_of_uint (Nat.to_uint n).

Fixpoint join (sep : string) (l : list string) : string :=
  match l with
  | [] => EmptyString
  | [x] => x
  | x :: rest => x ++ sep ++ join sep rest
  end.

(** [str(t)] for a tuple of ints: [()], [(5,)], [(1, 160, 160, 3)]. *)
Definition str_tuple (t : list nat) : string :=
  match t with
  | [] => "()"
  | [x] => "(" ++ str_int x ++ ",)"
  | _ => "(" ++ join ", " (map str_int t) ++ ")"
  end.

(** Lookup in the items of a dict. *)
Fixpoint dict_get (items : list (string * json)) (key : string) : option json :=
  match items with
  | [] => None
  | (k, v) :: rest => if String.eqb k key then Some v else dict_get rest key
  end.

(** [obj[key]] for a [str] key: a dict is looked up (KeyError when the key
    is absent), every other JSON object raises TypeError. *)
Definition getitem (obj : json) (key : string) : result json :=
  match obj with
  | JObj items =>
      match dict_get items key with
      | Some v => OK v
      | None => Raise (KeyError key)
      end
  | JNull => Raise (TypeError "'NoneType' object is not subscriptable")
  | JBool _ => Raise (TypeError "'bool' object is not subscriptable")
  | JInt _ => Raise (TypeError "'int' object is not subscriptable")
  | JNum _ => Raise (TypeError "'float' object is not subscriptable")
  | JStr _ => Raise (TypeError "string indices must be integers, not 'str'")
  | JArr _ => Raise (TypeError "list indices must be integers or slices, not str")
  end.

(** ** NumPy *)

Record ndarray : Type := mk_ndarray {
  shape : list nat;
  data : list float
}.

(** [np.expand_dims(a, axis)], for [axis <= len(a.shape)]: a dimension of
    size one is inserted at [axis], the elements are untouched. *)
Definition np_expand_dims (a : ndarray) (axis : nat) : ndarray :=
  {| shape := firstn axis (shape a) ++ 1 :: skipn axis (shape a);
     data := data a |}.

Definition is_nan (x : float) : bool :=
  match x with
  | S754_nan => true
  | _ => false
  end.

(** The scan of NumPy's float [argmax]: [mp] is the running maximum found at
    [max_ind], [i] the position of the head of [ip].  An element replaces
    the maximum when [not (x <= mp)]; a NaN ends the scan. *)
Fixpoint argmax_scan (mp : float) (max_ind i : nat) (ip : list float) : nat :=
  match ip with
  | [] => max_ind
  | x :: rest =>
      if negb (SFleb x mp)
      then if is_nan x then i else argmax_scan x i (S i) rest
      else argmax_scan mp max_ind (S i) rest
  end.

(** [np.argmax(v)] of a one-dimensional float array. *)
Definition np_argmax (v : list float) : result nat :=
  match v with
  | [] => Raise (ValueError "attempt to get argmax of an empty sequence")
  | mp :: rest => if is_nan mp then OK 0 else OK (argmax_scan mp 0 1 rest)
  end.

(** [a[0]] on the rows of a two-dimensional array. *)
Definition first_row (rows : list (list float)) : result (list float) :=
  match rows with
  | [] => Raise (IndexError "index 0 is out of bounds for axis 0 with size 0")
  | r :: _ => OK r
  end.

(** [r[i]] on a one-dimensional array, for an index in range. *)
Definition item (r : list float) (i : nat) : float := nth i r S754_nan.

(** A reference [np.array(obj, dtype=np.float32)] for nested lists of
    numbers, used on the sample requests: the shape is discovered first
    (every list at one depth has the same length), then the leaves are read
    in row-major order.  A float is taken as already representable in
    float32; an object that is not such a nested list is refused. *)
Fixpoint discover_shape (fuel : nat) (obj : json) : option (list nat) :=
  match fuel with
  | 0 => None
  | S fuel' =>
      match obj with
      | JArr [] => Some [0]
      | JArr (x :: rest) =>
          match discover_shape fuel' x with
          | Some s =>
              if forallb (fun y =>
                            match discover_shape fuel' y with
                            | Some s' => if list_eq_dec Nat.eq_dec s s' then true else false
                            | None => false
                            end) rest
              then Some (S (List.length rest) :: s)
              else None
          | None => None
          end
      | JInt _ | JNum _ => Some []
      | _ => None
      end
  end.

Definition float_of_Z (n : Z) : float :=
  match n with
  | Z0 => S754_zero false
  | Zpos p => binary_normalize 24 128 (Zpos p) 0 false
  | Zneg p => binary_normalize 24 128 (Zneg p) 0 true
  end.

Fixpoint leaves (fuel : nat) (obj : json) : list float :=
  match fuel with
  | 0 => []
  | S fuel' =>
      match obj with
      | JArr xs => flat_map (leaves fuel') xs
      | JInt n => [float_of_Z n]
      | JNum x => [x]
      | _ => []
      end
  end.

(** Nesting deeper than NumPy's 32 dimensions is not an array. *)
Definition np_array_nested (obj : json) : result ndarray :=
  match discover_shape 33 obj with
  | Some s => OK {| shape := s; data := leaves 33 obj |}
  | None => Raise (ValueError "setting an array element with a sequence.")
  end.

(** ** The process state and the handler monad *)

(** What a handler can change: the two output streams, a line per [print],
    and the log of the tensors passed to [model.predict]. *)
Record world : Type := mk_world {
  stdout : list string;
  stderr : list string;
  model_calls : list ndarray
}.

(** A handler step runs in a state and ends with a value or an exception. *)
Definition M (A : Type) : Type := world -> result A * world.

Definition ret {A : Type} (a : A) : M A := fun w => (OK a, w).

Definition bind {A B : Type} (m : M A) (k : A -> M B) : M B :=
  fun w =>
    match m w with
    | (OK a, w') => k a w'
    | (Raise e, w') => (Raise e, w')
    end.

(** A pure library call that may raise. *)
Definition lift {A : Type} (r : result A) : M A := fun w => (r, w).

(** [try: body  except Exception as e: handler e]. *)
Definition try_except {A : Type} (body : M A) (handler : exn -> M A) : M A :=
  fun w =>
    match body w with
    | (OK a, w') => (OK a, w')
    | (Raise e, w') => handler e w'
    end.

(** [print(line)]. *)
Definition print (line : string) : M unit :=
  fun w => (OK tt, {| stdout := stdout w ++ [line];
                      stderr := stderr w;
                      model_calls := model_calls w |}).

Definition print_err (text : string) : M unit :=
  fun w => (OK tt, {| stdout := stdout w;
                      stderr := stderr w ++ [text];
                      model_calls := model_calls w |}).

Declare Scope handler_scope.
Delimit Scope handler_scope with handler.
Notation "x <- m ;; k" := (bind m (fun x => k))
  (at level 100, m at next level, right associativity) : handler_scope.
Notation "m ;;; k" := (bind m (fun _ => k))
  (at level 100, right associativity) : handler_scope.

(** ** Flask *)

(** The request as the handlers read it: the outcome of
    [request.get_json()], the parsed body or the exception Flask raises for
    a body that is not JSON. *)
Record request : Type := mk_request {
  get_json : result json
}.

(** A view's return value: the [jsonify]'d object and the status code (200
    when the view returns the object alone). *)
Record response : Type := mk_response {
  body : json;
  status : nat
}.

(** [jsonify(d)] of a dict literal. *)
Definition jsonify (items : list (string * json)) : json := JObj items.

(** ** The handlers *)

Definition expected_shape : list nat := [1; 160; 160; 3].

(** Lines 35-36: a three-dimensional array gets a leading batch dimension. *)
Definition ensure_batch (image_data : ndarray) : ndarray :=
  if (List.length (shape image_data) =? 3)%nat
  then np_expand_dims image_data 0
  else image_data.

Section Server.

(** [np.array(obj, dtype=np.float32)] on a JSON object. *)
Variable np_array : json -> result ndarray.

(** [model.predict(x, verbose=0)]: the rows of scores, or an exception. *)
Variable model_predict : ndarray -> result (list (list float)).

(** The label table read at startup. *)
Variable class_labels : list string.

(** The text of a float under the format [.2%], and of a traceback. *)
Variable format_percent : float -> string.
Variable format_exc : exn -> string.

(** Lines 31-32 on their own: the array read from the [image] field. *)
Definition read_image (req : request) : result ndarray :=
  match get_json req with
  | OK data =>
      match getitem data "image" with
      | OK image => np_array image
      | Raise e => Raise e
      end
  | Raise e => Raise e
  end.

(** The call of the model, recorded in the state. *)
Definition call_model (x : ndarray) : M (list (list float)) :=
  fun w => (model_predict x, {| stdout := stdout w;
                                stderr := stderr w;
                                model_calls := model_calls w ++ [x] |}).

(** Lines 50-53. *)
Definition resolve_label (predicted_idx : nat) : string :=
  if (List.length class_labels <=? predicted_idx)%nat
  then "UNKNOWN_CLASS_" ++ str_int predicted_idx
  else nth predicted_idx class_labels EmptyString.

Definition shape_error (actual : list nat) : string :=
  "Invalid input shape. Expected " ++ str_tuple expected_shape ++
  ", got " ++ str_tuple actual.

Local Open Scope handler_scope.

(** [POST /predict] *)
Definition predict (req : request) : M response :=
  try_except
    (data <- lift (get_json req) ;;
     image <- lift (getitem data "image") ;;
     image_data <- lift (np_array image) ;;
     let image_data := ensure_batch image_data in
     if list_eq_dec Nat.eq_dec (shape image_data) expected_shape
     then
       predictions <- call_model image_data ;;
       row <- lift (first_row predictions) ;;
       predicted_idx <- lift (np_argmax row) ;;
       let confidence := item row predicted_idx in
       let predicted_class := resolve_label predicted_idx in
       print (">>> Prediction: " ++ predicted_class ++ " (confidence: " ++
              format_percent confidence ++ ")") ;;;
       ret {| body := jsonify [("prediction", JStr predicted_class);
                               ("confidence", JNum confidence)];
              status := 200 |}
     else
       ret {| body := jsonify [("error", JStr (shape_error (shape image_data)))];
              status := 400 |})
    (fun e =>
       print ("ERROR: " ++ str_exn e) ;;;
       print_err (format_exc e) ;;;
       ret {| body := jsonify [("error", JStr (str_exn e))];
              status := 500 |}).

End Server.

(** [GET /health] *)
Definition health : M response :=
  ret {| body := jsonify [("status", JStr "ok"); ("model_loaded", JBool true)];
         status := 200 |}.

(** ** Vocabulary of the statements *)

(** NumPy's order on scores: the IEEE comparison, with NaN maximal. *)
Definition score_le (x y : float) : bool := SFleb x y || is_nan y.

Definition f32_zero : float := S754_zero false.
Definition f32_one : float := SFone 24 128.

(** [0 <= c <= 1]. *)
Definition in_unit_interval (c : float) : bool :=
  SFleb f32_zero c && SFleb c f32_one.

(** What the statements use of a probability vector: it is not empty and
    every score lies in [[0, 1]]. *)
Definition probability_vector (v : list float) : Prop :=
  v <> [] /\ Forall (fun x => in_unit_interval x = true) v.

(** The three payloads of [predict]. *)
Definition success (predicted_class : string) (confidence : float) : response :=
  {| body := jsonify [("prediction", JStr predicted_class);
                      ("confidence", JNum confidence)];
     status := 200 |}.

Definition failure (code : nat) (message : string) : response :=
  {| body := jsonify [("error", JStr message)]; status := code |}.

Definition is_success (r : response) : Prop :=
  exists cls conf, r = success cls conf.

Definition is_failure (r : response) : Prop :=
  exists code msg, r = failure code msg /\ (code = 400 \/ code = 500).

(** The value of a field of a JSON object. *)
Definition field (b : json) (key : string) : option json :=
  match b with
  | JObj items => dict_get items key
  | _ => None
  end.

(** [sub] occurs in [s]. *)
Definition contains (s sub : string) : Prop :=
  exists before after : string, s = (before ++ sub ++ after)%string.

(** The state after the [except] branch has reported [e]. *)
Definition reported (format_exc : exn -> string) (e : exn) (w : world) : world :=
  {| stdout := stdout w ++ [("ERROR: " ++ str_exn e)%string];
     stderr := stderr w ++ [format_exc e];
     model_calls := model_calls w |}.

(** The state after the model has been called on [x]. *)
Definition called (x : ndarray) (w : world) : world :=
  {| stdout := stdout w; stderr := stderr w;
     model_calls := model_calls w ++ [x] |}.

(** ** Sample inputs *)

(** A nested list of zeros of the given shape. *)
Fixpoint zeros (s : list nat) : json :=
  match s with
  | [] => JInt 0
  | n :: s' => JArr (repeat (zeros s') n)
  end.

(** The array [np.array] makes of [zeros s]. *)
Definition zero_array (s : list nat) : ndarray :=
  {| shape := s; data := leaves 33 (zeros s) |}.

(** The request with body [{'image': image}]. *)
Definition image_request (image : json) : request :=
  {| get_json := OK (JObj [("image", image)]) |}.

(** The request with body [{}]. *)
Definition empty_request : request := {| get_json := OK (JObj []) |}.

Definition fresh : world := {| stdout := []; stderr := []; model_calls := [] |}.

Definition f32_half : float := S754_finite false 8388608 (-24).
Definition f32_quarter : float := S754_finite false 8388608 (-25).

(** A model that answers every tensor with the one row [row]. *)
Definition constant_model (row : list float) : ndarray -> result (list (list float)) :=
  fun _ => OK [row].

(** A model whose call raises [e]. *)
Definition failing_model (e : exn) : ndarray -> result (list (list float)) :=
  fun _ => Raise e.

Definition letters : list string := ["A"; "B"; "C"].

Definition plain_percent : float -> string := fun _ => "n/a".
Definition plain_exc : exn -> string := fun e => str_exn e.

(** ** Startup *)

(** The loaded Keras model as the module uses it: the texts of its
    [input_shape] and [output_shape], and its [predict]. *)
Record keras_model : Type := mk_keras_model {
  input_shape : string;
  output_shape : string;
  predict_fn : ndarray -> result (list (list float))
}.

(** [len(obj)] of a JSON object. *)
Definition py_len (obj : json) : result nat :=
  match obj with
  | JArr xs => OK (List.length xs)
  | JObj items => OK (List.length items)
  | JStr s => OK (String.length s)
  | JNull => Raise (TypeError "object of type 'NoneType' has no len()")
  | JBool _ => Raise (TypeError "object of type 'bool' has no len()")
  | JInt _ => Raise (TypeError "object of type 'int' has no len()")
  | JNum _ => Raise (TypeError "object of type 'float' has no len()")
  end.

(** Lines 15-26, the module body before the routes: [load_model] is the
    outcome of [keras.models.load_model], [labels_file] the outcome of
    opening the label file and parsing it.  An exception here ends the
    process before a request is served. *)
Definition startup (load_model : result keras_model) (labels_file : result json)
  : M (keras_model * json) :=
  (print "Loading sequential inference model..." ;;;
   model <- lift load_model ;;
   print ("Model loaded! Input: " ++ input_shape model ++
          ", Output: " ++ output_shape model) ;;;
   print "Model: Sequential inference model (160x160 input, 26 classes)" ;;;
   labels_data <- lift labels_file ;;
   class_labels <- lift (getitem labels_data "classes") ;;
   n <- lift (py_len class_labels) ;;
   print ("Loaded " ++ str_int n ++ " class labels") ;;;
   ret (model, class_labels))%handler.

(** ** Vocabulary of the further statements *)

(** The number of elements of an array of shape [s]. *)
Definition size_of (s : list nat) : nat := fold_right Nat.mul 1 s.

(** The position of the first NaN of a row. *)
Fixpoint first_nan (v : list float) : option nat :=
  match v with
  | [] => None
  | x :: rest => if is_nan x then Some 0 else option_map S (first_nan rest)
  end.

(** The text after a number in the text of a tuple begins with a comma or
    with the closing parenthesis. *)
Definition stops (r : string) : Prop :=
  exists rest, r = String "," rest \/ r = String ")" rest.

(** Requests handled one after the other, each in the state the one before
    left. *)
Fixpoint predict_all
    (np_array : json -> result ndarray)
    (model_predict : ndarray -> result (list (list float)))
    (class_labels : list string)
    (format_percent : float -> string) (format_exc : exn -> string)
    (reqs : list request) (w : world) : list (result response) * world :=
  match reqs with
  | [] => ([], w)
  | req :: rest =>
      let (r, w') := predict np_array model_predict class_labels
                       format_percent format_exc req w in
      let (rs, w'') := predict_all np_array model_predict class_labels
                         format_percent format_exc rest w' in
      (r :: rs, w'')
  end.

(** A sample model handle and label file. *)
Definition sample_model : keras_model :=
  {| input_shape := "(None, 160, 160, 3)";
     output_shape := "(None, 26)";
     predict_fn := constant_model [f32_quarter; f32_half; f32_quarter] |}.

Definition sample_labels_file : json :=
  JObj [("classes", JArr [JStr "A"; JStr "B"; JStr "C"])].

(** ** The order of IEEE-754 comparisons *)

Section FloatOrder.

Lemma SFcompare_antisym (x y : float) (c : comparison) :
  SFcompare x y = Some c -> SFcompare y x = Some (CompOpp c).
Proof.
  destruct x as [sx|sx| |sx mx ex], y as [sy|sy| |sy my ey]; simpl;
    try discriminate;
    try (destruct sx); try (destruct sy);
    intros [= <-]; try reflexivity; f_equal;
    change (Pos.compare_cont Eq) with Pos.compare;
    rewrite (Z.compare_antisym ex ey), (Pos.compare_antisym mx my);
    destruct (ex ?= ey)%Z, (mx ?= my)%positive; reflexivity.
Qed.

Lemma SFcompare_refl (x : float) :
  is_nan x = false -> SFcompare x x = Some Eq.
Proof.
  destruct x as [s|s| |s m e]; simpl; try discriminate;
    destruct s; intros _; try reflexivity;
    change (Pos.compare_cont Eq) with Pos.compare;
    rewrite Z.compare_refl, Pos.compare_refl; reflexivity.
Qed.

Lemma SFcompare_total (x y : float) :
  is_nan x = false -> is_nan y = false -> exists c, SFcompare x y = Some c.
Proof.
  destruct x, y; simpl; try discriminate; intros _ _; eauto.
Qed.

Lemma SFcompare_nan (x y : float) (c : comparison) :
  SFcompare x y = Some c -> is_nan x = false /\ is_nan y = false.
Proof.
  destruct x, y; simpl; try discriminate; auto.
Qed.

(** [x <= y] and [y < z] give [x < z]. *)
Lemma SFcompare_le_lt_trans (x y z : float) (c : comparison) :
  SFcompare x y = Some c -> c <> Gt ->
  SFcompare y z = Some Lt -> SFcompare x z = Some Lt.
Proof.
  destruct x as [sx|sx| |sx mx ex], y as [sy|sy| |sy my ey],
           z as [sz|sz| |sz mz ez]; simpl; try discriminate;
    try (destruct sx); try (destruct sy); try (destruct sz);
    intros [= <-] Hc; try discriminate; try reflexivity;
    try (exfalso; apply Hc; reflexivity);
    revert Hc;
    change (Pos.compare_cont Eq) with Pos.compare;
    destruct (Z.compare_spec ex ey), (Z.compare_spec ey ez),
             (Z.compare_spec ex ez);
    try discriminate; try reflexivity; try lia; try congruence;
    destruct (Pos.compare_spec mx my), (Pos.compare_spec my mz),
             (Pos.compare_spec mx mz);
    simpl; try discriminate; try reflexivity; try lia; try congruence.
Qed.

Lemma SFleb_not_nan (x y : float) :
  SFleb x y = true -> is_nan x = false /\ is_nan y = false.
Proof.
  unfold SFleb. destruct (SFcompare x y) eqn:E; [|discriminate].
  intros _. exact (SFcompare_nan _ _ _ E).
Qed.

Lemma SFleb_refl (x : float) : is_nan x = false -> SFleb x x = true.
Proof.
  intros H. unfold SFleb. rewrite (SFcompare_refl x H). reflexivity.
Qed.

Lemma SFltb_leb (x y : float) : SFltb x y = true -> SFleb x y = true.
Proof.
  unfold SFltb, SFleb. destruct (SFcompare x y) as [[]|]; auto.
Qed.

Lemma SFltb_not_geb (x y : float) : SFltb x y = true -> SFleb y x = false.
Proof.
  unfold SFltb, SFleb. destruct (SFcompare x y) as [c|] eqn:E; [|discriminate].
  rewrite (SFcompare_antisym _ _ _ E). destruct c; simpl; auto; discriminate.
Qed.

(** Off NaN the comparison is total: [not (x <= y)] is [y < x]. *)
Lemma SFleb_false_ltb (x y : float) :
  is_nan x = false -> is_nan y = false ->
  SFleb x y = false -> SFltb y x = true.
Proof.
  intros Hx Hy. unfold SFleb, SFltb.
  destruct (SFcompare_total x y Hx Hy) as [c E]. rewrite E.
  rewrite (SFcompare_antisym _ _ _ E). destruct c; simpl; auto; discriminate.
Qed.

Lemma SFleb_ltb_trans (x y z : float) :
  SFleb x y = true -> SFltb y z = true -> SFltb x z = true.
Proof.
  unfold SFleb, SFltb.
  destruct (SFcompare x y) as [c|] eqn:Exy; [|discriminate].
  destruct (SFcompare y z) as [[]|] eqn:Eyz; try discriminate.
  intros Hc _.
  rewrite (SFcompare_le_lt_trans x y z c Exy); [reflexivity| |exact Eyz].
  intros ->. discriminate.
Qed.

End FloatOrder.

(** ** [np.argmax] *)

Lemma score_le_SFleb (x y : float) :
  is_nan y = false -> score_le x y = SFleb x y.
Proof.
  intros H. unfold score_le. rewrite H. apply orb_false_r.
Qed.

Lemma item_app_l (pre ip : list float) (j : nat) :
  j < List.length pre -> item (pre ++ ip) j = item pre j.
Proof.
  intros H. unfold item. apply app_nth1. exact H.
Qed.

Lemma item_middle (pre rest : list float) (x : float) :
  item (pre ++ x :: rest) (List.length pre) = x.
Proof.
  unfold item. apply nth_middle.
Qed.

(** The scan keeps the first position of the greatest element seen so far;
    [pre] is the part of the vector already scanned. *)
Lemma argmax_scan_spec (ip pre : list float) (mp : float) (max_ind : nat) :
  max_ind < List.length pre ->
  item pre max_ind = mp ->
  is_nan mp = false ->
  (forall j, j < List.length pre -> SFleb (item pre j) mp = true) ->
  (forall j, j < max_ind -> SFltb (item pre j) mp = true) ->
  let v := pre ++ ip in
  let r := argmax_scan mp max_ind (List.length pre) ip in
  r < List.length v /\
  (forall j, j < List.length v -> score_le (item v j) (item v r) = true) /\
  (forall j, j < r -> score_le (item v r) (item v j) = false).
Proof.
  revert pre mp max_ind.
  induction ip as [|x rest IH]; intros pre mp max_ind Hlt Hmp Hnan Hle Hfirst; simpl.
  - rewrite app_nil_r. rewrite Hmp. repeat split.
    + exact Hlt.
    + intros j Hj. rewrite (score_le_SFleb _ _ Hnan). apply Hle. exact Hj.
    + intros j Hj. unfold score_le.
      pose proof (Hfirst j Hj) as Hjlt.
      rewrite (SFltb_not_geb _ _ Hjlt).
      destruct (SFleb_not_nan _ _ (SFltb_leb _ _ Hjlt)) as [-> _]. reflexivity.
  - assert (Hv : pre ++ x :: rest = (pre ++ [x]) ++ rest)
      by (rewrite <- app_assoc; reflexivity).
    assert (Hlen : List.length (pre ++ [x]) = S (List.length pre))
      by (rewrite length_app; simpl; lia).
    assert (Hx : item (pre ++ [x]) (List.length pre) = x) by apply item_middle.
    destruct (SFleb x mp) eqn:Exmp; simpl.
    + (* the maximum stands *)
      rewrite Hv, <- Hlen. apply IH.
      * rewrite Hlen. lia.
      * rewrite item_app_l by exact Hlt. exact Hmp.
      * exact Hnan.
      * intros j Hj. rewrite Hlen in Hj.
        destruct (Nat.eq_dec j (List.length pre)) as [->|Hne].
        -- rewrite Hx. exact Exmp.
        -- rewrite item_app_l by lia. apply Hle. lia.
      * intros j Hj. rewrite item_app_l by lia. apply Hfirst. exact Hj.
    + destruct (is_nan x) eqn:Enan.
      * (* a NaN ends the scan *)
        rewrite item_middle. repeat split.
        -- rewrite length_app. simpl. lia.
        -- intros j _. unfold score_le. rewrite Enan. apply orb_true_r.
        -- intros j Hj. rewrite item_app_l by exact Hj. unfold score_le.
           destruct (SFleb_not_nan _ _ (Hle j Hj)) as [-> _].
           destruct x; try discriminate. reflexivity.
      * (* a new maximum *)
        assert (Hmpx : SFltb mp x = true)
          by (apply SFleb_false_ltb; assumption).
        rewrite Hv, <- Hlen. apply IH.
        -- rewrite Hlen. lia.
        -- exact Hx.
        -- exact Enan.
        -- intros j Hj. rewrite Hlen in Hj.
           destruct (Nat.eq_dec j (List.length pre)) as [->|Hne].
           ++ rewrite Hx. apply SFleb_refl. exact Enan.
           ++ rewrite item_app_l by lia. apply SFltb_leb.
              apply SFleb_ltb_trans with mp; [apply Hle; lia | exact Hmpx].
        -- intros j Hj. rewrite item_app_l by lia.
           apply SFleb_ltb_trans with mp; [apply Hle; lia | exact Hmpx].
Qed.

(** [np.argmax] of a non-empty vector returns the first position of its
    greatest element. *)
Lemma np_argmax_spec (v : list float) :
  v <> [] ->
  exists r, np_argmax v = OK r /\
    r < List.length v /\
    (forall j, j < List.length v -> score_le (item v j) (item v r) = true) /\
    (forall j, j < r -> score_le (item v r) (item v j) = false).
Proof.
  destruct v as [|mp rest]; [congruence|]. intros _. simpl.
  destruct (is_nan mp) eqn:Enan.
  - exists 0. repeat split.
    + simpl. lia.
    + intros j _. unfold score_le, item. simpl. rewrite Enan. apply orb_true_r.
    + intros j Hj. lia.
  - exists (argmax_scan mp 0 1 rest). split; [reflexivity|].
    apply (argmax_scan_spec rest [mp] mp 0).
    + simpl. lia.
    + reflexivity.
    + exact Enan.
    + intros j Hj. simpl in Hj. replace j with 0 by lia.
      apply SFleb_refl. exact Enan.
    + intros j Hj. lia.
Qed.

Lemma np_argmax_raises (v : list float) (e : exn) :
  np_argmax v = Raise e -> v = [].
Proof.
  destruct v as [|mp rest]; [reflexivity|]. simpl.
  destruct (is_nan mp); discriminate.
Qed.

(** ** The paths through [predict] *)

Section Paths.

Variable np_array : json -> result ndarray.
Variable model_predict : ndarray -> result (list (list float)).
Variable class_labels : list string.
Variable format_percent : float -> string.
Variable format_exc : exn -> string.

Local Notation "'predict''" :=
  (predict np_array model_predict class_labels format_percent format_exc).
Local Notation "'read_image''" := (read_image np_array).

Ltac run :=
  unfold predict, read_image, try_except, bind, lift,
    call_model, print, print_err, ret, reported, called, success, failure in *;
  simpl in *.

(** Lines 31-32 raise: the [except] branch answers 500. *)
Lemma predict_unreadable (req : request) (e : exn) (w : world) :
  read_image' req = Raise e ->
  predict' req w = (OK (failure 500 (str_exn e)), reported format_exc e w).
Proof.
  run. intros H.
  destruct (get_json req) as [d|e0]; simpl.
  - destruct (getitem d "image") as [img|e1]; simpl.
    + rewrite H. reflexivity.
    + injection H as ->. reflexivity.
  - injection H as ->. reflexivity.
Qed.

(** The comparison of line 40 fails: 400, and nothing else happens. *)
Lemma predict_bad_shape (req : request) (a : ndarray) (w : world) :
  read_image' req = OK a ->
  shape (ensure_batch a) <> expected_shape ->
  predict' req w = (OK (failure 400 (shape_error (shape (ensure_batch a)))), w).
Proof.
  run. intros H Hs.
  destruct (get_json req) as [d|e0]; [|discriminate].
  destruct (getitem d "image") as [img|e1]; [|discriminate].
  simpl. rewrite H.
  destruct (list_eq_dec Nat.eq_dec (shape (ensure_batch a)) expected_shape);
    [contradiction|reflexivity].
Qed.

(** The state and the outcome of lines 44-61 once the shape is accepted. *)
Lemma predict_good_shape (req : request) (a : ndarray) (w : world) :
  read_image' req = OK a ->
  shape (ensure_batch a) = expected_shape ->
  predict' req w =
    let x := ensure_batch a in
    match model_predict x with
    | OK predictions =>
        match first_row predictions with
        | OK row =>
            match np_argmax row with
            | OK predicted_idx =>
                let confidence := item row predicted_idx in
                let predicted_class := resolve_label class_labels predicted_idx in
                (OK (success predicted_class confidence),
                 {| stdout := stdout w ++
                      [(">>> Prediction: " ++ predicted_class ++ " (confidence: " ++
                        format_percent confidence ++ ")")%string];
                    stderr := stderr w;
                    model_calls := model_calls w ++ [x] |})
            | Raise e => (OK (failure 500 (str_exn e)), reported format_exc e (called x w))
            end
        | Raise e => (OK (failure 500 (str_exn e)), reported format_exc e (called x w))
        end
    | Raise e => (OK (failure 500 (str_exn e)), reported format_exc e (called x w))
    end.
Proof.
  run. intros H Hs.
  destruct (get_json req) as [d|e0]; [|discriminate].
  destruct (getitem d "image") as [img|e1]; [|discriminate].
  simpl. rewrite H.
  destruct (list_eq_dec Nat.eq_dec (shape (ensure_batch a)) expected_shape);
    [|contradiction].
  destruct (model_predict (ensure_batch a)) as [rows|e2]; [|reflexivity].
  destruct (first_row rows) as [row|e3]; [|reflexivity].
  destruct (np_argmax row) as [i|e4]; reflexivity.
Qed.

(** No exception escapes the handler, and its answer is one of the three
    payloads. *)
Lemma predict_answers (req : request) (w : world) :
  exists r, fst (predict' req w) = OK r /\
    ((exists cls conf, r = success cls conf) \/
     (exists msg, r = failure 400 msg) \/
     (exists msg, r = failure 500 msg)).
Proof.
  destruct (read_image' req) as [a|e] eqn:Hr.
  - destruct (list_eq_dec Nat.eq_dec (shape (ensure_batch a)) expected_shape) as [Hs|Hs].
    + rewrite (predict_good_shape req a w Hr Hs). cbv zeta.
      destruct (model_predict (ensure_batch a)) as [rows|e2]; [|simpl; eauto 6].
      destruct (first_row rows) as [row|e3]; [|simpl; eauto 6].
      destruct (np_argmax row) as [i|e4]; simpl; eauto 6.
    + rewrite (predict_bad_shape req a w Hr Hs). simpl. eauto 6.
  - rewrite (predict_unreadable req e w Hr). simpl. eauto 6.
Qed.


(** *** Normalisation, labels and messages *)

Lemma append_empty_r (s : string) : (s ++ EmptyString)%string = s.
Proof.
  induction s as [|c s IH]; simpl; [reflexivity | f_equal; exact IH].
Qed.

Lemma shape_error_expected (actual : list nat) :
  contains (shape_error actual) "(1, 160, 160, 3)".
Proof.
  exists "Invalid input shape. Expected ", (", got " ++ str_tuple actual)%string.
  reflexivity.
Qed.

Lemma shape_error_actual (actual : list nat) :
  contains (shape_error actual) (str_tuple actual).
Proof.
  exists "Invalid input shape. Expected (1, 160, 160, 3), got ", EmptyString.
  rewrite append_empty_r. reflexivity.
Qed.

Lemma ensure_batch_rank3 (a : ndarray) :
  List.length (shape a) = 3 ->
  ensure_batch a = {| shape := 1 :: shape a; data := data a |}.
Proof.
  intros H. unfold ensure_batch. rewrite H. reflexivity.
Qed.

Lemma ensure_batch_other_rank (a : ndarray) :
  List.length (shape a) <> 3 -> ensure_batch a = a.
Proof.
  intros H. unfold ensure_batch.
  destruct (Nat.eqb_spec (List.length (shape a)) 3); [contradiction|reflexivity].
Qed.

Lemma ensure_batch_expected (a : ndarray) :
  shape a = [1; 160; 160; 3] \/ shape a = [160; 160; 3] ->
  shape (ensure_batch a) = expected_shape.
Proof.
  intros [H|H].
  - rewrite ensure_batch_other_rank; rewrite H; [reflexivity|simpl; lia].
  - rewrite ensure_batch_rank3; rewrite H; reflexivity.
Qed.

Lemma resolve_label_in_range (i : nat) :
  i < List.length class_labels ->
  resolve_label class_labels i = nth i class_labels EmptyString.
Proof.
  intros H. unfold resolve_label.
  destruct (Nat.leb_spec (List.length class_labels) i); [lia|reflexivity].
Qed.

Lemma resolve_label_out_of_range (i : nat) :
  List.length class_labels <= i ->
  resolve_label class_labels i = ("UNKNOWN_CLASS_" ++ str_int i)%string.
Proof.
  intros H. unfold resolve_label.
  destruct (Nat.leb_spec (List.length class_labels) i); [reflexivity|lia].
Qed.

Lemma resolve_label_nonempty (i : nat) :
  Forall (fun label => label <> EmptyString) class_labels ->
  resolve_label class_labels i <> EmptyString.
Proof.
  intros Hall. unfold resolve_label.
  destruct (Nat.leb_spec (List.length class_labels) i) as [Hle|Hlt].
  - discriminate.
  - rewrite Forall_forall in Hall. apply Hall. apply nth_In. exact Hlt.
Qed.

Lemma item_in_unit_interval (row : list float) (i : nat) :
  Forall (fun x => in_unit_interval x = true) row ->
  i < List.length row ->
  in_unit_interval (item row i) = true.
Proof.
  intros Hall Hi. rewrite Forall_forall in Hall.
  apply Hall. unfold item. apply nth_In. exact Hi.
Qed.

(** The answer on the success path, for a model that returns at least one
    non-empty row. *)
Lemma predict_scored (req : request) (a : ndarray) (row : list float)
    (rest : list (list float)) (w : world) :
  read_image' req = OK a ->
  shape (ensure_batch a) = expected_shape ->
  model_predict (ensure_batch a) = OK (row :: rest) ->
  row <> [] ->
  exists i,
    np_argmax row = OK i /\
    i < List.length row /\
    (forall j, j < List.length row -> score_le (item row j) (item row i) = true) /\
    (forall j, j < i -> score_le (item row i) (item row j) = false) /\
    fst (predict' req w) = OK (success (resolve_label class_labels i) (item row i)).
Proof.
  intros Hr Hs Hm Hne.
  destruct (np_argmax_spec row Hne) as (i & Hi & Hlt & Hmax & Hfirst).
  exists i. repeat split; try assumption.
  rewrite (predict_good_shape req a w Hr Hs). cbv zeta.
  rewrite Hm. simpl. rewrite Hi. reflexivity.
Qed.

(** ** The claims *)

(** C1, as amended: for every request whose [image] field is a numeric array
    of shape (1,160,160,3) or (160,160,3), when the model returns a
    probability vector and no label of the table is the empty string,
    [predict] answers 200 with a [confidence] in [[0,1]] and a non-empty
    [prediction]. *)
Theorem predict_valid_image (req : request) (a : ndarray) (row : list float)
    (rest : list (list float)) (w : world) :
  read_image' req = OK a ->
  shape a = [1; 160; 160; 3] \/ shape a = [160; 160; 3] ->
  model_predict (ensure_batch a) = OK (row :: rest) ->
  probability_vector row ->
  Forall (fun label => label <> EmptyString) class_labels ->
  exists cls conf,
    fst (predict' req w) = OK (success cls conf) /\
    status (success cls conf) = 200 /\
    in_unit_interval conf = true /\
    cls <> EmptyString.
Proof.
  intros Hr Hshape Hm [Hne Hprob] Hlabels.
  destruct (predict_scored req a row rest w Hr (ensure_batch_expected a Hshape) Hm Hne)
    as (i & _ & Hlt & _ & _ & Hp).
  exists (resolve_label class_labels i), (item row i).
  repeat split.
  - exact Hp.
  - apply item_in_unit_interval; assumption.
  - apply resolve_label_nonempty. exact Hlabels.
Qed.

(** C2: when the shape after normalisation is not (1, 160, 160, 3),
    [predict] answers 400 with a message that contains the expected and the
    actual shape; for the shape (1, 160, 160, 4) the payload is the one
    written out. *)
Theorem predict_shape_mismatch (req : request) (a : ndarray) (w : world) :
  read_image' req = OK a ->
  shape (ensure_batch a) <> expected_shape ->
  fst (predict' req w) =
    OK (failure 400 (shape_error (shape (ensure_batch a)))) /\
  contains (shape_error (shape (ensure_batch a))) "(1, 160, 160, 3)" /\
  contains (shape_error (shape (ensure_batch a)))
           (str_tuple (shape (ensure_batch a))) /\
  (shape (ensure_batch a) = [1; 160; 160; 4] ->
   body (failure 400 (shape_error (shape (ensure_batch a)))) =
   jsonify [("error", JStr "Invalid input shape. Expected (1, 160, 160, 3), got (1, 160, 160, 4)")]).
Proof.
  intros Hr Hs. repeat split.
  - rewrite (predict_bad_shape req a w Hr Hs). reflexivity.
  - apply shape_error_expected.
  - apply shape_error_actual.
  - intros ->. reflexivity.
Qed.

(** C3, as amended: a body without an [image] field makes [predict] answer
    500, with the text of the exception that reading the field raised as
    the error string, never a success payload; for a JSON object without
    the key that text is ['image']. *)
Theorem predict_missing_image (req : request) (data : json) (w : world) :
  get_json req = OK data ->
  field data "image" = None ->
  exists e,
    getitem data "image" = Raise e /\
    fst (predict' req w) = OK (failure 500 (str_exn e)) /\
    field (body (failure 500 (str_exn e))) "error" = Some (JStr (str_exn e)) /\
    ~ is_success (failure 500 (str_exn e)) /\
    (forall items, data = JObj items -> str_exn e = "'image'").
Proof.
  intros Hj Hk.
  assert (Hg : exists e, getitem data "image" = Raise e /\
                 (forall items, data = JObj items -> str_exn e = "'image'")).
  { destruct data; simpl in Hk |- *;
      try (eexists; split; [reflexivity | intros items' Hd; discriminate Hd]).
    rewrite Hk. eexists. split; [reflexivity | intros _ _; reflexivity]. }
  destruct Hg as (e & Hg & Hkey). exists e.
  assert (Hr : read_image' req = Raise e).
  { unfold read_image. rewrite Hj, Hg. reflexivity. }
  split; [exact Hg|]. split; [|split; [reflexivity|split; [|exact Hkey]]].
  - rewrite (predict_unreadable req e w Hr). reflexivity.
  - intros (cls & conf & H). discriminate H.
Qed.

(** C4: on every non-empty row of scores the model returns, [predict]
    selects the position of the maximum, the lowest one on ties, and answers
    with the score at that position as it is.  The maximum is NumPy's, with
    NaN maximal; on a row without NaN it is the maximum of the IEEE
    comparison. *)
Theorem predict_top_score (req : request) (a : ndarray) (row : list float)
    (rest : list (list float)) (w : world) :
  read_image' req = OK a ->
  shape (ensure_batch a) = expected_shape ->
  model_predict (ensure_batch a) = OK (row :: rest) ->
  row <> [] ->
  exists i,
    np_argmax row = OK i /\
    i < List.length row /\
    (forall j, j < List.length row -> score_le (item row j) (item row i) = true) /\
    (forall j, j < i -> score_le (item row i) (item row j) = false) /\
    (Forall (fun x => is_nan x = false) row ->
     forall j, j < List.length row ->
       SFleb (item row j) (item row i) = true /\
       (j < i -> SFltb (item row j) (item row i) = true)) /\
    fst (predict' req w) = OK (success (resolve_label class_labels i) (item row i)) /\
    field (body (success (resolve_label class_labels i) (item row i))) "confidence"
      = Some (JNum (item row i)).
Proof.
  intros Hr Hs Hm Hne.
  destruct (predict_scored req a row rest w Hr Hs Hm Hne)
    as (i & Hi & Hlt & Hmax & Hfirst & Hp).
  exists i.
  split; [exact Hi|]. split; [exact Hlt|]. split; [exact Hmax|].
  split; [exact Hfirst|]. split; [|split; [exact Hp | reflexivity]].
  intros Hnan j Hjlen. rewrite Forall_forall in Hnan.
  assert (Hni : is_nan (item row i) = false)
    by (apply Hnan; unfold item; apply nth_In; exact Hlt).
  assert (Hnj : is_nan (item row j) = false)
    by (apply Hnan; unfold item; apply nth_In; exact Hjlen).
  split.
  - rewrite <- (score_le_SFleb _ _ Hni). apply Hmax. exact Hjlen.
  - intros Hj. apply SFleb_false_ltb; try assumption.
    rewrite <- (score_le_SFleb _ _ Hnj). apply Hfirst. exact Hj.
Qed.

(** C5: a predicted index at or beyond the length of the label table is
    answered with the label UNKNOWN_CLASS_<index>, in a 200 response. *)
Theorem predict_unknown_class (req : request) (a : ndarray) (row : list float)
    (rest : list (list float)) (i : nat) (w : world) :
  read_image' req = OK a ->
  shape (ensure_batch a) = expected_shape ->
  model_predict (ensure_batch a) = OK (row :: rest) ->
  np_argmax row = OK i ->
  List.length class_labels <= i ->
  fst (predict' req w) =
    OK (success ("UNKNOWN_CLASS_" ++ str_int i) (item row i)) /\
  status (success ("UNKNOWN_CLASS_" ++ str_int i) (item row i)) = 200 /\
  field (body (success ("UNKNOWN_CLASS_" ++ str_int i) (item row i))) "prediction"
    = Some (JStr ("UNKNOWN_CLASS_" ++ str_int i)).
Proof.
  intros Hr Hs Hm Hi Hle. repeat split.
  rewrite (predict_good_shape req a w Hr Hs). cbv zeta.
  rewrite Hm. simpl. rewrite Hi.
  rewrite (resolve_label_out_of_range i Hle). reflexivity.
Qed.

(** C6: [ensure_batch] puts a leading dimension of size one on a
    three-dimensional array and returns a four-dimensional array as it is;
    the comparison with (1, 160, 160, 3), and the call of the model after
    it, are made on its result. *)
Theorem ensure_batch_before_compare (a : ndarray) :
  (List.length (shape a) = 3 ->
   shape (ensure_batch a) = 1 :: shape a /\ data (ensure_batch a) = data a) /\
  (List.length (shape a) = 4 -> ensure_batch a = a) /\
  (forall req w,
     read_image' req = OK a ->
     (shape (ensure_batch a) <> expected_shape ->
      predict' req w =
        (OK (failure 400 (shape_error (shape (ensure_batch a)))), w)) /\
     (shape (ensure_batch a) = expected_shape ->
      model_calls (snd (predict' req w)) = model_calls w ++ [ensure_batch a])).
Proof.
  split; [|split].
  - intros H3. rewrite (ensure_batch_rank3 a H3). split; reflexivity.
  - intros H4. apply ensure_batch_other_rank. lia.
  - intros req w Hr. split; intros Hs.
    + apply predict_bad_shape; assumption.
    + rewrite (predict_good_shape req a w Hr Hs). cbv zeta.
      destruct (model_predict (ensure_batch a)) as [rows|e]; [|reflexivity].
      destruct (first_row rows) as [r|e]; [|reflexivity].
      destruct (np_argmax r) as [i|e]; reflexivity.
Qed.

(** C7: when the call of the model raises, [predict] answers 500 with the
    message of the exception and a payload without [prediction] and
    [confidence]; and every request is answered by a success payload or by
    an error payload, never both. *)
Theorem predict_model_failure (req : request) (a : ndarray) (e : exn) (w : world) :
  read_image' req = OK a ->
  shape (ensure_batch a) = expected_shape ->
  model_predict (ensure_batch a) = Raise e ->
  fst (predict' req w) = OK (failure 500 (str_exn e)) /\
  field (body (failure 500 (str_exn e))) "error" = Some (JStr (str_exn e)) /\
  field (body (failure 500 (str_exn e))) "prediction" = None /\
  field (body (failure 500 (str_exn e))) "confidence" = None /\
  (forall req' w', exists r,
     fst (predict' req' w') = OK r /\
     ((is_success r /\ ~ is_failure r) \/ (is_failure r /\ ~ is_success r))).
Proof.
  intros Hr Hs Hm. repeat split.
  - rewrite (predict_good_shape req a w Hr Hs). cbv zeta. rewrite Hm. reflexivity.
  - intros req' w'.
    destruct (predict_answers req' w') as (r & Hp & Hcases).
    exists r. split; [exact Hp|].
    destruct Hcases as [(cls & conf & ->)|[(msg & ->)|(msg & ->)]].
    + left. split; [exists cls, conf; reflexivity|].
      intros (code & m & H & _). discriminate H.
    + right. split; [exists 400, msg; auto|].
      intros (cls & conf & H). discriminate H.
    + right. split; [exists 500, msg; auto|].
      intros (cls & conf & H). discriminate H.
Qed.

(** C10: an array whose number of dimensions is neither 3 nor 4 is left as
    it is, fails the comparison, and is answered 400 with its own shape in
    the message; the model is not called. *)
Theorem predict_other_rank (req : request) (a : ndarray) (w : world) :
  read_image' req = OK a ->
  List.length (shape a) <> 3 ->
  List.length (shape a) <> 4 ->
  ensure_batch a = a /\
  shape a <> expected_shape /\
  fst (predict' req w) = OK (failure 400 (shape_error (shape a))) /\
  contains (shape_error (shape a)) (str_tuple (shape a)) /\
  model_calls (snd (predict' req w)) = model_calls w.
Proof.
  intros Hr H3 H4.
  assert (He : ensure_batch a = a) by (apply ensure_batch_other_rank; exact H3).
  assert (Hs : shape (ensure_batch a) <> expected_shape).
  { rewrite He. intros Heq. apply H4. rewrite Heq. reflexivity. }
  pose proof (predict_bad_shape req a w Hr Hs) as Hp. rewrite He in Hp, Hs.
  repeat split; try assumption.
  - rewrite Hp. reflexivity.
  - apply shape_error_actual.
  - rewrite Hp. reflexivity.
Qed.

End Paths.

(** C8: two invocations of [predict] on requests that carry the same input
    tensor give the same answer, hence the same [prediction] and
    [confidence], whatever the states they run in and whatever the logging
    prints; in particular a second invocation, run in the state the first
    one left, repeats the answer of the first. *)
Theorem predict_deterministic
    (np_array : json -> result ndarray)
    (model_predict : ndarray -> result (list (list float)))
    (class_labels : list string)
    (format_percent format_percent' : float -> string)
    (format_exc format_exc' : exn -> string)
    (req1 req2 : request) (w1 w2 : world) :
  read_image np_array req1 = read_image np_array req2 ->
  fst (predict np_array model_predict class_labels format_percent format_exc req1 w1) =
  fst (predict np_array model_predict class_labels format_percent' format_exc' req2 w2) /\
  fst (predict np_array model_predict class_labels format_percent format_exc req1
         (snd (predict np_array model_predict class_labels format_percent format_exc req1 w1))) =
  fst (predict np_array model_predict class_labels format_percent format_exc req1 w1).
Proof.
  intros Hsame.
  assert (Hany : forall fp fe fp' fe' req w w',
             read_image np_array req1 = read_image np_array req ->
             fst (predict np_array model_predict class_labels fp fe req1 w) =
             fst (predict np_array model_predict class_labels fp' fe' req w')).
  { intros fp fe fp' fe' req w w' Heq.
    destruct (read_image np_array req1) as [a|e] eqn:Hr; symmetry in Heq.
    - destruct (list_eq_dec Nat.eq_dec (shape (ensure_batch a)) expected_shape)
        as [Hs|Hs].
      + rewrite (predict_good_shape _ _ _ _ _ req1 a _ Hr Hs).
        rewrite (predict_good_shape _ _ _ _ _ req a _ Heq Hs). cbv zeta.
        destruct (model_predict (ensure_batch a)) as [rows|e2]; [|reflexivity].
        destruct (first_row rows) as [row|e3]; [|reflexivity].
        destruct (np_argmax row) as [i|e4]; reflexivity.
      + rewrite (predict_bad_shape _ _ _ _ _ req1 a _ Hr Hs).
        rewrite (predict_bad_shape _ _ _ _ _ req a _ Heq Hs). reflexivity.
    - rewrite (predict_unreadable _ _ _ _ _ req1 e _ Hr).
      rewrite (predict_unreadable _ _ _ _ _ req e _ Heq). reflexivity. }
  split; apply Hany; [exact Hsame | reflexivity].
Qed.

(** C9: [health] answers 200 with the payload status ok, model_loaded true,
    in every state and without changing it, also in the state any [predict]
    has left. *)
Theorem health_ok (w : world) :
  health w =
    (OK {| body := jsonify [("status", JStr "ok"); ("model_loaded", JBool true)];
           status := 200 |}, w) /\
  (forall np_array model_predict class_labels format_percent format_exc req,
     fst (health (snd (predict np_array model_predict class_labels
                         format_percent format_exc req w))) =
     OK {| body := jsonify [("status", JStr "ok"); ("model_loaded", JBool true)];
           status := 200 |}).
Proof.
  split; reflexivity.
Qed.

(** ** The claims on sample requests *)

Lemma read_image_request (np_array : json -> result ndarray) (image : json) :
  read_image np_array (image_request image) = np_array image.
Proof. reflexivity. Qed.

(** [np_array_nested] on a nested list whose shape is discovered. *)
Lemma np_array_nested_zeros (s : list nat) :
  discover_shape 33 (zeros s) = Some s ->
  read_image np_array_nested (image_request (zeros s)) = OK (zero_array s).
Proof.
  intros H. rewrite read_image_request. unfold np_array_nested. rewrite H.
  reflexivity.
Qed.

Lemma read_zeros_3 :
  read_image np_array_nested (image_request (zeros [160; 160; 3])) =
  OK (zero_array [160; 160; 3]).
Proof. apply np_array_nested_zeros. vm_compute. reflexivity. Qed.

Lemma zeros_3_expected :
  shape (ensure_batch (zero_array [160; 160; 3])) = expected_shape.
Proof. reflexivity. Qed.

(** C1 at an all-zero image of shape (160, 160, 3). *)
Lemma predict_valid_image_zeros :
  read_image np_array_nested (image_request (zeros [160; 160; 3])) =
    OK (zero_array [160; 160; 3]) /\
  probability_vector [f32_quarter; f32_half; f32_quarter] /\
  Forall (fun label => label <> EmptyString) letters /\
  exists cls conf,
    fst (predict np_array_nested
           (constant_model [f32_quarter; f32_half; f32_quarter]) letters
           plain_percent plain_exc (image_request (zeros [160; 160; 3])) fresh) =
      OK (success cls conf) /\
    status (success cls conf) = 200 /\
    in_unit_interval conf = true /\
    cls <> EmptyString.
Proof.
  assert (Hprob : probability_vector [f32_quarter; f32_half; f32_quarter])
    by (split; [discriminate | repeat constructor]).
  assert (Hlab : Forall (fun label => label <> EmptyString) letters)
    by (repeat constructor; discriminate).
  split; [exact read_zeros_3|]. split; [exact Hprob|]. split; [exact Hlab|].
  apply (predict_valid_image np_array_nested
           (constant_model [f32_quarter; f32_half; f32_quarter]) letters
           plain_percent plain_exc (image_request (zeros [160; 160; 3]))
           (zero_array [160; 160; 3]) [f32_quarter; f32_half; f32_quarter] []).
  - exact read_zeros_3.
  - right. reflexivity.
  - reflexivity.
  - exact Hprob.
  - exact Hlab.
Defined.

(** With a label table that holds an empty name the answer to a valid image
    is a 200 whose [prediction] is the empty string. *)
Lemma predict_empty_label :
  read_image np_array_nested (image_request (zeros [160; 160; 3])) =
    OK (zero_array [160; 160; 3]) /\
  constant_model [f32_one] (ensure_batch (zero_array [160; 160; 3])) = OK [[f32_one]] /\
  probability_vector [f32_one] /\
  fst (predict np_array_nested (constant_model [f32_one]) [EmptyString]
         plain_percent plain_exc (image_request (zeros [160; 160; 3])) fresh) =
    OK (success EmptyString f32_one) /\
  ~ (exists cls conf,
       fst (predict np_array_nested (constant_model [f32_one]) [EmptyString]
              plain_percent plain_exc (image_request (zeros [160; 160; 3])) fresh) =
         OK (success cls conf) /\
       cls <> EmptyString).
Proof.
  assert (Hp : fst (predict np_array_nested (constant_model [f32_one]) [EmptyString]
                      plain_percent plain_exc
                      (image_request (zeros [160; 160; 3])) fresh) =
               OK (success EmptyString f32_one)).
  { rewrite (predict_good_shape _ _ _ _ _ _ _ fresh read_zeros_3 zeros_3_expected).
    reflexivity. }
  split; [exact read_zeros_3|]. split; [reflexivity|].
  split; [split; [discriminate | repeat constructor]|].
  split; [exact Hp|].
  intros (cls & conf & H & Hne). rewrite Hp in H.
  injection H as <- _. apply Hne. reflexivity.
Qed.

Lemma read_zeros_4_channels :
  read_image np_array_nested (image_request (zeros [1; 160; 160; 4])) =
  OK (zero_array [1; 160; 160; 4]).
Proof. apply np_array_nested_zeros. vm_compute. reflexivity. Qed.

Lemma zeros_4_channels_rejected :
  shape (ensure_batch (zero_array [1; 160; 160; 4])) <> expected_shape.
Proof.
  intros H. apply (f_equal (fun s => nth 3 s 0)) in H. discriminate H.
Qed.

(** C2 at an all-zero image of shape (1, 160, 160, 4). *)
Lemma predict_shape_mismatch_4_channels :
  read_image np_array_nested (image_request (zeros [1; 160; 160; 4])) =
    OK (zero_array [1; 160; 160; 4]) /\
  shape (ensure_batch (zero_array [1; 160; 160; 4])) <> expected_shape /\
  fst (predict np_array_nested (constant_model [f32_one]) letters
         plain_percent plain_exc (image_request (zeros [1; 160; 160; 4])) fresh) =
    OK (failure 400
          "Invalid input shape. Expected (1, 160, 160, 3), got (1, 160, 160, 4)").
Proof.
  split; [exact read_zeros_4_channels|].
  split; [exact zeros_4_channels_rejected|].
  exact (proj1 (predict_shape_mismatch np_array_nested (constant_model [f32_one])
                  letters plain_percent plain_exc
                  (image_request (zeros [1; 160; 160; 4]))
                  (zero_array [1; 160; 160; 4]) fresh
                  read_zeros_4_channels zeros_4_channels_rejected)).
Defined.

(** The body [{}] is answered 500, not 400. *)
Lemma predict_empty_body :
  get_json empty_request = OK (JObj []) /\
  dict_get [] "image" = None /\
  fst (predict np_array_nested (constant_model [f32_one]) letters
         plain_percent plain_exc empty_request fresh) =
    OK (failure 500 "'image'") /\
  status (failure 500 "'image'") <> 400.
Proof.
  repeat split. discriminate.
Qed.

(** C3, as amended, at the body [{}]. *)
Lemma predict_missing_image_empty_body :
  get_json empty_request = OK (JObj []) /\
  field (JObj []) "image" = None /\
  exists e,
    getitem (JObj []) "image" = Raise e /\
    fst (predict np_array_nested (constant_model [f32_one]) letters
           plain_percent plain_exc empty_request fresh) =
      OK (failure 500 (str_exn e)) /\
    str_exn e = "'image'".
Proof.
  split; [reflexivity|]. split; [reflexivity|].
  destruct (predict_missing_image np_array_nested (constant_model [f32_one])
              letters plain_percent plain_exc empty_request (JObj []) fresh
              eq_refl eq_refl)
    as (e & Hg & Hp & _ & _ & Hkey).
  exists e. split; [exact Hg|]. split; [exact Hp|]. exact (Hkey [] eq_refl).
Defined.

(** C4 on a row with a tie: positions 1 and 2 hold the maximum, position 1
    is selected. *)
Lemma predict_top_score_tie :
  read_image np_array_nested (image_request (zeros [160; 160; 3])) =
    OK (zero_array [160; 160; 3]) /\
  [f32_quarter; f32_half; f32_half] <> [] /\
  np_argmax [f32_quarter; f32_half; f32_half] = OK 1 /\
  exists i,
    np_argmax [f32_quarter; f32_half; f32_half] = OK i /\
    i < 3 /\
    fst (predict np_array_nested (constant_model [f32_quarter; f32_half; f32_half])
           letters plain_percent plain_exc
           (image_request (zeros [160; 160; 3])) fresh) =
      OK (success (resolve_label letters i)
                  (item [f32_quarter; f32_half; f32_half] i)).
Proof.
  split; [exact read_zeros_3|]. split; [discriminate|]. split; [reflexivity|].
  destruct (predict_top_score np_array_nested
              (constant_model [f32_quarter; f32_half; f32_half]) letters
              plain_percent plain_exc (image_request (zeros [160; 160; 3]))
              (zero_array [160; 160; 3]) [f32_quarter; f32_half; f32_half] [] fresh
              read_zeros_3 zeros_3_expected eq_refl
              ltac:(discriminate))
    as (i & Hi & Hlt & _ & _ & _ & Hp & _).
  exists i. split; [exact Hi|]. split; [exact Hlt|]. exact Hp.
Defined.

(** C5 with a table of one label and the maximum at position 1. *)
Lemma predict_unknown_class_1 :
  read_image np_array_nested (image_request (zeros [160; 160; 3])) =
    OK (zero_array [160; 160; 3]) /\
  np_argmax [f32_quarter; f32_half] = OK 1 /\
  List.length ["A"] <= 1 /\
  fst (predict np_array_nested (constant_model [f32_quarter; f32_half]) ["A"]
         plain_percent plain_exc (image_request (zeros [160; 160; 3])) fresh) =
    OK (success "UNKNOWN_CLASS_1" f32_half).
Proof.
  split; [exact read_zeros_3|]. split; [reflexivity|]. split; [simpl; lia|].
  exact (proj1 (predict_unknown_class np_array_nested
                  (constant_model [f32_quarter; f32_half]) ["A"]
                  plain_percent plain_exc (image_request (zeros [160; 160; 3]))
                  (zero_array [160; 160; 3]) [f32_quarter; f32_half] [] 1 fresh
                  read_zeros_3 zeros_3_expected eq_refl eq_refl
                  (le_n 1))).
Defined.

(** C7 with a model whose call raises. *)
Lemma predict_model_failure_raised :
  read_image np_array_nested (image_request (zeros [160; 160; 3])) =
    OK (zero_array [160; 160; 3]) /\
  failing_model (Exception "InvalidArgumentError" "Graph execution error")
    (ensure_batch (zero_array [160; 160; 3])) =
    Raise (Exception "InvalidArgumentError" "Graph execution error") /\
  fst (predict np_array_nested
         (failing_model (Exception "InvalidArgumentError" "Graph execution error"))
         letters plain_percent plain_exc
         (image_request (zeros [160; 160; 3])) fresh) =
    OK (failure 500 "Graph execution error").
Proof.
  split; [exact read_zeros_3|]. split; [reflexivity|].
  exact (proj1 (predict_model_failure np_array_nested
                  (failing_model (Exception "InvalidArgumentError" "Graph execution error"))
                  letters plain_percent plain_exc
                  (image_request (zeros [160; 160; 3]))
                  (zero_array [160; 160; 3])
                  (Exception "InvalidArgumentError" "Graph execution error") fresh
                  read_zeros_3 zeros_3_expected eq_refl)).
Defined.

(** C10 at a two-dimensional image. *)
Lemma predict_other_rank_matrix :
  read_image np_array_nested (image_request (zeros [2; 2])) = OK (zero_array [2; 2]) /\
  fst (predict np_array_nested (constant_model [f32_one]) letters
         plain_percent plain_exc (image_request (zeros [2; 2])) fresh) =
    OK (failure 400 "Invalid input shape. Expected (1, 160, 160, 3), got (2, 2)") /\
  model_calls (snd (predict np_array_nested (constant_model [f32_one]) letters
                      plain_percent plain_exc (image_request (zeros [2; 2])) fresh)) = [].
Proof.
  split; [reflexivity|].
  destruct (predict_other_rank np_array_nested (constant_model [f32_one]) letters
              plain_percent plain_exc (image_request (zeros [2; 2]))
              (zero_array [2; 2]) fresh eq_refl
              ltac:(simpl; lia) ltac:(simpl; lia))
    as (_ & _ & Hp & _ & Hcalls).
  split; [exact Hp | exact Hcalls].
Defined.

(** C8 on two bodies that differ in a field [predict] does not read. *)
Lemma predict_deterministic_extra_field :
  read_image np_array_nested (image_request (zeros [160; 160; 3])) =
  read_image np_array_nested
    {| get_json := OK (JObj [("client", JStr "web"); ("image", zeros [160; 160; 3])]) |} /\
  fst (predict np_array_nested (constant_model [f32_quarter; f32_half; f32_quarter])
         letters plain_percent plain_exc
         (image_request (zeros [160; 160; 3])) fresh) =
  fst (predict np_array_nested (constant_model [f32_quarter; f32_half; f32_quarter])
         letters plain_percent plain_exc
         {| get_json := OK (JObj [("client", JStr "web"); ("image", zeros [160; 160; 3])]) |}
         fresh).
Proof.
  split; [reflexivity|].
  exact (proj1 (predict_deterministic np_array_nested
                  (constant_model [f32_quarter; f32_half; f32_quarter])
                  letters plain_percent plain_percent plain_exc plain_exc
                  (image_request (zeros [160; 160; 3]))
                  {| get_json := OK (JObj [("client", JStr "web");
                                           ("image", zeros [160; 160; 3])]) |}
                  fresh fresh eq_refl)).
Defined.

(** ** Further properties of the handlers *)

Lemma ensure_batch_accepts (a : ndarray) :
  shape (ensure_batch a) = expected_shape ->
  shape a = [1; 160; 160; 3] \/ shape a = [160; 160; 3].
Proof.
  unfold ensure_batch.
  destruct (Nat.eqb_spec (List.length (shape a)) 3) as [H3|H3]; simpl.
  - intros [= H]. right. exact H.
  - intros H. left. exact H.
Qed.

Lemma first_nan_item (v : list float) (k : nat) :
  first_nan v = Some k -> k < List.length v /\ item v k = S754_nan.
Proof.
  revert k. induction v as [|x rest IH]; intros k; simpl; [discriminate|].
  destruct (is_nan x) eqn:Ex.
  - intros [= <-]. split; [lia|]. destruct x; try discriminate. reflexivity.
  - destruct (first_nan rest) as [k'|]; [|discriminate].
    intros [= <-]. destruct (IH k' eq_refl) as [Hlt Hit].
    split; [simpl; lia | exact Hit].
Qed.

Lemma argmax_scan_nan (ip : list float) (k : nat) (mp : float) (max_ind i : nat) :
  first_nan ip = Some k ->
  argmax_scan mp max_ind i ip = i + k.
Proof.
  revert k mp max_ind i.
  induction ip as [|x rest IH]; intros k mp max_ind i; simpl; [discriminate|].
  destruct (is_nan x) eqn:Ex.
  - intros [= <-]. destruct x; try discriminate. simpl. lia.
  - destruct (first_nan rest) as [k'|]; [|discriminate].
    intros [= <-].
    destruct (SFleb x mp); simpl; rewrite (IH k' _ _ _ eq_refl); lia.
Qed.

(** [np.argmax] of a row that holds a NaN is the position of its first
    NaN. *)
Lemma np_argmax_nan (v : list float) (k : nat) :
  first_nan v = Some k -> np_argmax v = OK k.
Proof.
  destruct v as [|x rest]; simpl; [discriminate|].
  destruct (is_nan x).
  - intros [= <-]. reflexivity.
  - destruct (first_nan rest) as [k'|] eqn:E; [|discriminate].
    intros [= <-]. rewrite (argmax_scan_nan rest k' x 0 1 E). reflexivity.
Qed.

Lemma str_int_inj (i j : nat) : str_int i = str_int j -> i = j.
Proof.
  unfold str_int. intros H.
  apply (f_equal NilEmpty.uint_of_string) in H.
  rewrite !NilEmpty.usu in H. injection H as H.
  apply DecimalNat.Unsigned.to_uint_inj. exact H.
Qed.

Section Further.

Variable np_array : json -> result ndarray.
Variable model_predict : ndarray -> result (list (list float)).
Variable class_labels : list string.
Variable format_percent : float -> string.
Variable format_exc : exn -> string.

Local Notation "'predict''" :=
  (predict np_array model_predict class_labels format_percent format_exc).
Local Notation "'read_image''" := (read_image np_array).


(** X2: when the model returns no row, or a first row without a score,
    [predict] answers 500 with the text of NumPy's exception; the model has
    been called once, on the normalised tensor. *)
Theorem predict_unusable_output (req : request) (a : ndarray)
    (rows : list (list float)) (w : world) :
  read_image' req = OK a ->
  shape (ensure_batch a) = expected_shape ->
  model_predict (ensure_batch a) = OK rows ->
  rows = [] \/ (exists rest, rows = [] :: rest) ->
  (rows = [] ->
   fst (predict' req w) =
     OK (failure 500 "index 0 is out of bounds for axis 0 with size 0")) /\
  (rows <> [] ->
   fst (predict' req w) =
     OK (failure 500 "attempt to get argmax of an empty sequence")) /\
  model_calls (snd (predict' req w)) = model_calls w ++ [ensure_batch a].
Proof.
  intros Hr Hs Hm Hrows.
  rewrite (predict_good_shape _ _ _ _ _ req a w Hr Hs). cbv zeta. rewrite Hm.
  destruct Hrows as [->|(rest & ->)]; simpl.
  - split; [reflexivity|]. split; [intros H; contradiction H; reflexivity|].
    reflexivity.
  - split; [discriminate|]. split; reflexivity.
Qed.

(** X3: in a 200 response the [prediction] is an entry of the label table,
    the one at the selected position, or the marker of a position at or
    beyond the end of the table, and the [confidence] is a score of the first
    row the model returned. *)
Theorem predict_success_origin (req : request) (r : response) (w : world) :
  fst (predict' req w) = OK r ->
  status r = 200 ->
  exists a row rest i,
    read_image' req = OK a /\
    model_predict (ensure_batch a) = OK (row :: rest) /\
    np_argmax row = OK i /\
    i < List.length row /\
    In (item row i) row /\
    ((i < List.length class_labels /\
      In (nth i class_labels EmptyString) class_labels /\
      r = success (nth i class_labels EmptyString) (item row i)) \/
     (List.length class_labels <= i /\
      r = success ("UNKNOWN_CLASS_" ++ str_int i) (item row i))).
Proof.
  intros Hp Hst.
  destruct (read_image' req) as [a|e] eqn:Hr.
  - destruct (list_eq_dec Nat.eq_dec (shape (ensure_batch a)) expected_shape)
      as [Hs|Hs].
    + rewrite (predict_good_shape _ _ _ _ _ req a w Hr Hs) in Hp. cbv zeta in Hp.
      destruct (model_predict (ensure_batch a)) as [rows|e2] eqn:Hm;
        [|injection Hp as <-; discriminate Hst].
      destruct rows as [|row rest]; simpl in Hp;
        [injection Hp as <-; discriminate Hst|].
      destruct (np_argmax row) as [i|e4] eqn:Hi;
        [|injection Hp as <-; discriminate Hst].
      simpl in Hp. injection Hp as <-.
      assert (Hne : row <> []).
      { intros ->. discriminate Hi. }
      destruct (np_argmax_spec row Hne) as (i' & Hi' & Hlt & _).
      rewrite Hi in Hi'. injection Hi' as <-.
      exists a, row, rest, i.
      split; [reflexivity|]. split; [exact Hm|]. split; [exact Hi|].
      split; [exact Hlt|]. split; [unfold item; apply nth_In; exact Hlt|].
      destruct (Nat.lt_ge_cases i (List.length class_labels)) as [Hin|Hout].
      * left. split; [exact Hin|]. split; [apply nth_In; exact Hin|].
        rewrite (resolve_label_in_range class_labels i Hin). reflexivity.
      * right. split; [exact Hout|].
        rewrite (resolve_label_out_of_range class_labels i Hout). reflexivity.
    + rewrite (predict_bad_shape _ _ _ _ _ req a w Hr Hs) in Hp.
      injection Hp as <-. discriminate Hst.
  - rewrite (predict_unreadable _ _ _ _ _ req e w Hr) in Hp.
    injection Hp as <-. discriminate Hst.
Qed.

(** The six ways through [predict], each with the answer it gives. *)
Lemma predict_path (req : request) (w : world) :
  (exists e, read_image' req = Raise e /\
     fst (predict' req w) = OK (failure 500 (str_exn e))) \/
  (exists a, read_image' req = OK a /\
     shape (ensure_batch a) <> expected_shape /\
     fst (predict' req w) = OK (failure 400 (shape_error (shape (ensure_batch a))))) \/
  (exists a e, read_image' req = OK a /\
     shape (ensure_batch a) = expected_shape /\
     model_predict (ensure_batch a) = Raise e /\
     fst (predict' req w) = OK (failure 500 (str_exn e))) \/
  (exists a msg, read_image' req = OK a /\
     shape (ensure_batch a) = expected_shape /\
     model_predict (ensure_batch a) = OK [] /\
     fst (predict' req w) = OK (failure 500 msg)) \/
  (exists a rest msg, read_image' req = OK a /\
     shape (ensure_batch a) = expected_shape /\
     model_predict (ensure_batch a) = OK ([] :: rest) /\
     fst (predict' req w) = OK (failure 500 msg)) \/
  (exists a row rest i, read_image' req = OK a /\
     shape (ensure_batch a) = expected_shape /\
     model_predict (ensure_batch a) = OK (row :: rest) /\
     row <> [] /\
     fst (predict' req w) =
       OK (success (resolve_label class_labels i) (item row i))).
Proof.
  destruct (read_image' req) as [a|e] eqn:Hr.
  - destruct (list_eq_dec Nat.eq_dec (shape (ensure_batch a)) expected_shape)
      as [Hs|Hs].
    + destruct (model_predict (ensure_batch a)) as [[|[|x xs] rest]|e2] eqn:Hm.
      * do 3 right. left. eexists a, _. repeat split; try assumption.
        rewrite (predict_good_shape _ _ _ _ _ req a w Hr Hs). cbv zeta.
        rewrite Hm. reflexivity.
      * do 4 right. left. eexists a, rest, _. repeat split; try assumption.
        rewrite (predict_good_shape _ _ _ _ _ req a w Hr Hs). cbv zeta.
        rewrite Hm. reflexivity.
      * do 5 right.
        destruct (predict_scored np_array model_predict class_labels
                    format_percent format_exc req a (x :: xs) rest w Hr Hs Hm)
          as (i & _ & _ & _ & _ & Hp); [discriminate|].
        exists a, (x :: xs), rest, i. repeat split; try assumption. discriminate.
      * do 2 right. left. exists a, e2. repeat split; try assumption.
        rewrite (predict_good_shape _ _ _ _ _ req a w Hr Hs). cbv zeta.
        rewrite Hm. reflexivity.
    + right. left. exists a. repeat split; try assumption.
      rewrite (predict_bad_shape _ _ _ _ _ req a w Hr Hs). reflexivity.
  - left. exists e. split; [reflexivity|].
    rewrite (predict_unreadable _ _ _ _ _ req e w Hr). reflexivity.
Qed.

(** X4: the status code tells the path taken: 200 exactly when the image was
    read, its normalised shape accepted and the model returned a first row
    with a score; 400 exactly when the image was read and its normalised
    shape refused; 500 in every other case. *)
Theorem predict_status_table (req : request) (w : world) :
  exists r,
    fst (predict' req w) = OK r /\
    (status r = 200 <->
     exists a row rest,
       read_image' req = OK a /\ shape (ensure_batch a) = expected_shape /\
       model_predict (ensure_batch a) = OK (row :: rest) /\ row <> []) /\
    (status r = 400 <->
     exists a, read_image' req = OK a /\ shape (ensure_batch a) <> expected_shape) /\
    (status r = 200 \/ status r = 400 \/ status r = 500).
Proof.
  destruct (predict_path req w)
    as [(e & Hr & Hp)|[(a & Hr & Hs & Hp)|[(a & e & Hr & Hs & Hm & Hp)|
       [(a & msg & Hr & Hs & Hm & Hp)|[(a & rest & msg & Hr & Hs & Hm & Hp)|
        (a & row & rest & i & Hr & Hs & Hm & Hne & Hp)]]]]];
    (eexists; split; [exact Hp|]); simpl;
    (split; [split;
       [try discriminate; intros _; exists a, row, rest; auto
       |try reflexivity;
        intros (a' & row' & rest' & Hr' & Hs' & Hm' & Hne'); congruence]|]);
    (split; [split;
       [try discriminate; intros _; exists a; auto
       |try reflexivity; intros (a' & Hr' & Hs'); congruence]|]);
    auto.
Qed.

(** The trace of model calls after one request. *)
Lemma predict_model_calls (req : request) (w : world) :
  (exists a,
     read_image' req = OK a /\ shape (ensure_batch a) = expected_shape /\
     model_calls (snd (predict' req w)) = model_calls w ++ [ensure_batch a]) \/
  ((forall a, read_image' req = OK a -> shape (ensure_batch a) <> expected_shape) /\
   model_calls (snd (predict' req w)) = model_calls w).
Proof.
  destruct (read_image' req) as [a|e] eqn:Hr.
  - destruct (list_eq_dec Nat.eq_dec (shape (ensure_batch a)) expected_shape)
      as [Hs|Hs].
    + left. exists a. split; [reflexivity|]. split; [exact Hs|].
      rewrite (predict_good_shape _ _ _ _ _ req a w Hr Hs). cbv zeta.
      destruct (model_predict (ensure_batch a)) as [rows|e2]; [|reflexivity].
      destruct (first_row rows) as [row|e3]; [|reflexivity].
      destruct (np_argmax row) as [i|e4]; reflexivity.
    + right. split.
      * intros a' [= <-]. exact Hs.
      * rewrite (predict_bad_shape _ _ _ _ _ req a w Hr Hs). reflexivity.
  - right. split.
    + intros a' [=].
    + rewrite (predict_unreadable _ _ _ _ _ req e w Hr). reflexivity.
Qed.

(** X5: [predict] calls the model exactly when the image is read as an array
    of shape (1, 160, 160, 3) or (160, 160, 3), and then once, on the tensor
    with the batch dimension; otherwise the model is not called. *)
Theorem predict_calls_model_iff (req : request) (w : world) :
  (exists a,
     read_image' req = OK a /\
     (shape a = [1; 160; 160; 3] \/ shape a = [160; 160; 3]) /\
     shape (ensure_batch a) = [1; 160; 160; 3] /\
     model_calls (snd (predict' req w)) = model_calls w ++ [ensure_batch a]) \/
  ((forall a, read_image' req = OK a ->
      shape a <> [1; 160; 160; 3] /\ shape a <> [160; 160; 3]) /\
   model_calls (snd (predict' req w)) = model_calls w).
Proof.
  destruct (predict_model_calls req w) as [(a & Hr & Hs & Hc)|[Hno Hc]].
  - left. exists a. split; [exact Hr|].
    split; [apply ensure_batch_accepts; exact Hs|]. split; [exact Hs|exact Hc].
  - right. split; [|exact Hc].
    intros a Hr. pose proof (Hno a Hr) as Hs.
    split; intros Heq; apply Hs; apply ensure_batch_expected; auto.
Qed.


(** X10: a NaN among the scores is not refused: the answer is a 200 whose
    [confidence] is NaN and whose [prediction] is the label of the position
    of the first NaN. *)
Theorem predict_nan_score (req : request) (a : ndarray) (row : list float)
    (rest : list (list float)) (k : nat) (w : world) :
  read_image' req = OK a ->
  shape (ensure_batch a) = expected_shape ->
  model_predict (ensure_batch a) = OK (row :: rest) ->
  first_nan row = Some k ->
  fst (predict' req w) = OK (success (resolve_label class_labels k) S754_nan) /\
  in_unit_interval S754_nan = false.
Proof.
  intros Hr Hs Hm Hk.
  rewrite (predict_good_shape _ _ _ _ _ req a w Hr Hs). cbv zeta.
  rewrite Hm. simpl. rewrite (np_argmax_nan row k Hk).
  destruct (first_nan_item row k Hk) as [_ ->]. split; reflexivity.
Qed.

(** X11: the marker of an unknown class tells the position: two positions
    at or beyond the end of the label table with the same resolved label are
    the same position. *)
Theorem resolve_label_marker_inj (i j : nat) :
  List.length class_labels <= i ->
  List.length class_labels <= j ->
  resolve_label class_labels i = resolve_label class_labels j ->
  i = j.
Proof.
  intros Hi Hj.
  rewrite (resolve_label_out_of_range class_labels i Hi).
  rewrite (resolve_label_out_of_range class_labels j Hj).
  intros H. apply str_int_inj.
  change (String.append "UNKNOWN_CLASS_" (str_int i))
    with (("UNKNOWN_CLASS_" ++ str_int i)%string) in H.
  simpl in H. injection H as H. exact H.
Qed.

(** X6: requests handled one after the other are all answered, none lets an
    exception out; the model is called at most once for each, and when every
    tensor it had seen before has the shape (1, 160, 160, 3), so has every
    tensor it has seen after. *)
Theorem predict_all_calls (reqs : list request) (w : world) :
  Forall (fun x => shape x = expected_shape) (model_calls w) ->
  let run := predict_all np_array model_predict class_labels
               format_percent format_exc reqs w in
  Forall (fun x => shape x = expected_shape) (model_calls (snd run)) /\
  List.length (model_calls (snd run)) <= List.length (model_calls w) + List.length reqs /\
  List.length (fst run) = List.length reqs /\
  Forall (fun r => exists resp, r = OK resp) (fst run).
Proof.
  revert w. induction reqs as [|req rest IH]; intros w Hw; simpl.
  - repeat split; [exact Hw | lia | constructor].
  - destruct (predict' req w) as [r w'] eqn:Hp.
    assert (Hw' : Forall (fun x => shape x = expected_shape) (model_calls w') /\
                  List.length (model_calls w') <= S (List.length (model_calls w))).
    { pose proof (predict_model_calls req w) as Hc. rewrite Hp in Hc. simpl in Hc.
      destruct Hc as [(a & _ & Hs & ->)|[_ ->]].
      - split.
        + apply Forall_app. split; [exact Hw|]. constructor; [exact Hs|constructor].
        + rewrite length_app. simpl. lia.
      - split; [exact Hw | lia]. }
    destruct Hw' as [Hall Hlen].
    specialize (IH w' Hall). cbv zeta in IH.
    destruct (predict_all np_array model_predict class_labels format_percent
                format_exc rest w') as [rs w''] eqn:Hrun.
    simpl in IH |- *. destruct IH as (H1 & H2 & H3 & H4).
    repeat split.
    + exact H1.
    + lia.
    + lia.
    + constructor; [|exact H4].
      destruct (predict_answers np_array model_predict class_labels
                  format_percent format_exc req w) as (resp & Hresp & _).
      rewrite Hp in Hresp. simpl in Hresp. exists resp. exact Hresp.
Qed.

End Further.

(** ** The normaliser on its own *)

(** X8: [ensure_batch] is idempotent, and its result never has three
    dimensions. *)
Theorem ensure_batch_idempotent (a : ndarray) :
  ensure_batch (ensure_batch a) = ensure_batch a /\
  List.length (shape (ensure_batch a)) <> 3.
Proof.
  destruct (Nat.eq_dec (List.length (shape a)) 3) as [H3|H3].
  - rewrite (ensure_batch_rank3 a H3).
    assert (H4 : List.length (shape {| shape := 1 :: shape a; data := data a |}) <> 3)
      by (simpl; lia).
    split; [apply ensure_batch_other_rank; exact H4 | exact H4].
  - rewrite (ensure_batch_other_rank a H3).
    split; [apply ensure_batch_other_rank; exact H3 | exact H3].
Qed.

(** X9: [ensure_batch] keeps the elements and their number: the data is
    untouched, the product of the dimensions is the same, so an array whose
    data fills its shape still does. *)
Theorem ensure_batch_keeps_elements (a : ndarray) :
  data (ensure_batch a) = data a /\
  size_of (shape (ensure_batch a)) = size_of (shape a) /\
  (List.length (data a) = size_of (shape a) ->
   List.length (data (ensure_batch a)) = size_of (shape (ensure_batch a))).
Proof.
  assert (H : data (ensure_batch a) = data a /\
              size_of (shape (ensure_batch a)) = size_of (shape a)).
  { destruct (Nat.eq_dec (List.length (shape a)) 3) as [H3|H3].
    - rewrite (ensure_batch_rank3 a H3). simpl. split; [reflexivity|lia].
    - rewrite (ensure_batch_other_rank a H3). split; reflexivity. }
  destruct H as [Hd Hn]. split; [exact Hd|]. split; [exact Hn|].
  intros Hfull. rewrite Hd, Hn. exact Hfull.
Qed.

(** ** Startup *)

(** X12: [startup] returns a model and labels exactly when the model loads
    as that model, the label file is read, it has the key [classes] with
    those labels as its value, and the value has a length; in every other
    case it raises and no request is served. *)
Theorem startup_succeeds_iff (load_model : result keras_model)
    (labels_file : result json) (model : keras_model) (class_labels : json)
    (w : world) :
  fst (startup load_model labels_file w) = OK (model, class_labels) <->
  (load_model = OK model /\
   exists labels_data n,
     labels_file = OK labels_data /\
     getitem labels_data "classes" = OK class_labels /\
     py_len class_labels = OK n).
Proof.
  unfold startup, bind, lift, print, ret. simpl. split.
  - intros H.
    destruct load_model as [m|e]; simpl in H; [|discriminate].
    destruct labels_file as [d|e]; simpl in H; [|discriminate].
    destruct (getitem d "classes") as [cl|e] eqn:Hg; simpl in H; [|discriminate].
    destruct (py_len cl) as [n|e] eqn:Hn; simpl in H; [|discriminate].
    injection H as <- <-.
    split; [reflexivity|]. exists d, n. repeat split; assumption.
  - intros (-> & d & n & -> & Hg & Hn). simpl. rewrite Hg. simpl.
    rewrite Hn. reflexivity.
Qed.

(** X13: what [startup] prints.  The first line comes before the model is
    loaded; a failed load leaves it alone; a label file without [classes]
    raises KeyError after the two lines about the model; a list under
    [classes] is reported with its length on a fourth line. *)
Theorem startup_output (model : keras_model) (w : world) :
  (forall e labels_file,
     startup (Raise e) labels_file w =
       (Raise e,
        {| stdout := stdout w ++ ["Loading sequential inference model..."];
           stderr := stderr w; model_calls := model_calls w |})) /\
  (forall items,
     dict_get items "classes" = None ->
     startup (OK model) (OK (JObj items)) w =
       (Raise (KeyError "classes"),
        {| stdout := stdout w ++
             ["Loading sequential inference model...";
              ("Model loaded! Input: " ++ input_shape model ++
               ", Output: " ++ output_shape model)%string;
              "Model: Sequential inference model (160x160 input, 26 classes)"];
           stderr := stderr w; model_calls := model_calls w |})) /\
  (forall items labels,
     dict_get items "classes" = Some (JArr labels) ->
     startup (OK model) (OK (JObj items)) w =
       (OK (model, JArr labels),
        {| stdout := stdout w ++
             ["Loading sequential inference model...";
              ("Model loaded! Input: " ++ input_shape model ++
               ", Output: " ++ output_shape model)%string;
              "Model: Sequential inference model (160x160 input, 26 classes)";
              ("Loaded " ++ str_int (List.length labels) ++ " class labels")%string];
           stderr := stderr w; model_calls := model_calls w |})).
Proof.
  split; [|split].
  - intros e labels_file. reflexivity.
  - intros items Hk. unfold startup, bind, lift, print, ret. simpl.
    rewrite Hk. simpl. rewrite <- !app_assoc. reflexivity.
  - intros items labels Hk. unfold startup, bind, lift, print, ret. simpl.
    rewrite Hk. simpl. rewrite <- !app_assoc. reflexivity.
Qed.

(** ** The text of a shape *)

Lemma string_app_assoc (a b c : string) :
  ((a ++ b) ++ c)%string = (a ++ (b ++ c))%string.
Proof.
  induction a as [|x a IH]; simpl; [reflexivity | f_equal; exact IH].
Qed.

Lemma string_app_inv_head (p a b : string) :
  (p ++ a)%string = (p ++ b)%string -> a = b.
Proof.
  induction p as [|x p IH]; simpl; [auto|]. intros [= H]. apply IH. exact H.
Qed.

(** Two numbers followed by such texts: the same text, the same numbers. *)
Lemma digits_split (d1 d2 : Decimal.uint) (r1 r2 : string) :
  stops r1 -> stops r2 ->
  (NilEmpty.string_of_uint d1 ++ r1)%string =
  (NilEmpty.string_of_uint d2 ++ r2)%string ->
  d1 = d2 /\ r1 = r2.
Proof.
  revert d2.
  induction d1 as [|d1 IH|d1 IH|d1 IH|d1 IH|d1 IH|d1 IH|d1 IH|d1 IH|d1 IH|d1 IH];
    intros d2 H1 H2; destruct d2; simpl; intros H;
    try (split; [reflexivity | exact H]);
    try (destruct H1 as (rest & [->| ->]); discriminate H);
    try (destruct H2 as (rest & [->| ->]); discriminate H);
    try discriminate H;
    injection H as H; destruct (IH _ H1 H2 H) as [-> ->]; split; reflexivity.
Qed.

Lemma str_int_split (x y : nat) (r1 r2 : string) :
  stops r1 -> stops r2 ->
  (str_int x ++ r1)%string = (str_int y ++ r2)%string ->
  x = y /\ r1 = r2.
Proof.
  intros H1 H2 H. destruct (digits_split _ _ _ _ H1 H2 H) as [Hd Hr].
  split; [apply DecimalNat.Unsigned.to_uint_inj; exact Hd | exact Hr].
Qed.

Lemma join_cons2 (x y : string) (l : list string) :
  join ", " (x :: y :: l) = (x ++ ", " ++ join ", " (y :: l))%string.
Proof. reflexivity. Qed.

Lemma join_inj (l1 l2 : list nat) :
  l1 <> [] -> l2 <> [] ->
  (join ", " (map str_int l1) ++ ")")%string =
  (join ", " (map str_int l2) ++ ")")%string ->
  l1 = l2.
Proof.
  revert l2. induction l1 as [|x l1 IH]; intros l2 Hn1 Hn2; [congruence|].
  destruct l2 as [|y l2]; [congruence|].
  destruct l1 as [|x' l1], l2 as [|y' l2]; simpl map;
    rewrite ?join_cons2, ?string_app_assoc; intros H.
  - apply str_int_split in H; [|eexists; right; reflexivity ..].
    destruct H as [-> _]. reflexivity.
  - apply str_int_split in H;
      [|eexists; right; reflexivity|eexists; left; reflexivity].
    destruct H as [_ H]. discriminate H.
  - apply str_int_split in H;
      [|eexists; left; reflexivity|eexists; right; reflexivity].
    destruct H as [_ H]. discriminate H.
  - apply str_int_split in H; [|eexists; left; reflexivity ..].
    destruct H as [-> H]. simpl in H. injection H as H.
    f_equal. apply IH; [discriminate | discriminate | exact H].
Qed.

Lemma str_tuple_inj (s1 s2 : list nat) : str_tuple s1 = str_tuple s2 -> s1 = s2.
Proof.
  assert (Hnil : forall x r, stops r -> (")" : string) <> (str_int x ++ r)%string).
  { intros x r Hr H.
    destruct (digits_split Decimal.Nil (Nat.to_uint x) ")" r) as [Hd _];
      [eexists; right; reflexivity | exact Hr | exact H |].
    apply (f_equal Nat.of_uint) in Hd.
    rewrite DecimalNat.Unsigned.of_to in Hd.
    destruct x as [|x]; [discriminate H|].
    simpl in Hd. discriminate Hd. }
  destruct s1 as [|x [|x' l1]], s2 as [|y [|y' l2]]; unfold str_tuple;
    rewrite ?join_cons2; simpl map; rewrite ?join_cons2;
    intros H; simpl in H; try injection H as H.
  - reflexivity.
  - exfalso. apply (Hnil y ",)"); [eexists; left; reflexivity | exact H].
  - exfalso. rewrite string_app_assoc in H.
    apply (Hnil y _) in H; [exact H | eexists; left; reflexivity].
  - exfalso. symmetry in H.
    apply (Hnil x ",)"); [eexists; left; reflexivity | exact H].
  - apply str_int_split in H; [|eexists; left; reflexivity ..].
    destruct H as [-> _]. reflexivity.
  - rewrite string_app_assoc in H.
    apply str_int_split in H; [|eexists; left; reflexivity ..].
    destruct H as [_ H]. discriminate H.
  - exfalso. symmetry in H. rewrite string_app_assoc in H.
    apply (Hnil x _) in H; [exact H | eexists; left; reflexivity].
  - rewrite string_app_assoc in H.
    apply str_int_split in H; [|eexists; left; reflexivity ..].
    destruct H as [_ H]. discriminate H.
  - apply (join_inj (x :: x' :: l1) (y :: y' :: l2)); try discriminate.
    simpl map. rewrite !join_cons2. exact H.
Qed.

(** X14: the message of the 400 answer tells the refused shape: two shapes
    with the same message are the same shape. *)
Theorem shape_error_inj (actual1 actual2 : list nat) :
  shape_error actual1 = shape_error actual2 -> actual1 = actual2.
Proof.
  unfold shape_error. intros H.
  apply string_app_inv_head in H. apply string_app_inv_head in H.
  apply string_app_inv_head in H. apply str_tuple_inj. exact H.
Qed.

(** ** The further properties on sample requests *)


(** X2 with a model that returns an empty batch. *)
Lemma predict_unusable_output_empty_batch :
  read_image np_array_nested (image_request (zeros [160; 160; 3])) =
    OK (zero_array [160; 160; 3]) /\
  fst (predict np_array_nested (fun _ => OK []) letters plain_percent plain_exc
         (image_request (zeros [160; 160; 3])) fresh) =
    OK (failure 500 "index 0 is out of bounds for axis 0 with size 0") /\
  model_calls (snd (predict np_array_nested (fun _ => OK []) letters
                      plain_percent plain_exc
                      (image_request (zeros [160; 160; 3])) fresh)) =
    [ensure_batch (zero_array [160; 160; 3])].
Proof.
  split; [exact read_zeros_3|].
  destruct (predict_unusable_output np_array_nested (fun _ => OK []) letters
              plain_percent plain_exc (image_request (zeros [160; 160; 3]))
              (zero_array [160; 160; 3]) [] fresh
              read_zeros_3 zeros_3_expected eq_refl (or_introl eq_refl))
    as (Hp & _ & Hc).
  split; [exact (Hp eq_refl) | exact Hc].
Defined.

Lemma predict_zeros_B :
  fst (predict np_array_nested
         (constant_model [f32_quarter; f32_half; f32_quarter]) letters
         plain_percent plain_exc (image_request (zeros [160; 160; 3])) fresh) =
  OK (success "B" f32_half).
Proof.
  rewrite (predict_good_shape _ _ _ _ _ _ _ fresh read_zeros_3 zeros_3_expected).
  reflexivity.
Qed.

(** X3 at an all-zero image and a model whose maximum is at position 1. *)
Lemma predict_success_origin_B :
  fst (predict np_array_nested
         (constant_model [f32_quarter; f32_half; f32_quarter]) letters
         plain_percent plain_exc (image_request (zeros [160; 160; 3])) fresh) =
    OK (success "B" f32_half) /\
  status (success "B" f32_half) = 200 /\
  exists a row rest i,
    read_image np_array_nested (image_request (zeros [160; 160; 3])) = OK a /\
    constant_model [f32_quarter; f32_half; f32_quarter] (ensure_batch a) =
      OK (row :: rest) /\
    np_argmax row = OK i /\
    i < List.length row /\
    In (item row i) row /\
    ((i < List.length letters /\
      In (nth i letters EmptyString) letters /\
      success "B" f32_half = success (nth i letters EmptyString) (item row i)) \/
     (List.length letters <= i /\
      success "B" f32_half = success ("UNKNOWN_CLASS_" ++ str_int i) (item row i))).
Proof.
  split; [exact predict_zeros_B|]. split; [reflexivity|].
  exact (predict_success_origin np_array_nested
           (constant_model [f32_quarter; f32_half; f32_quarter]) letters
           plain_percent plain_exc (image_request (zeros [160; 160; 3]))
           (success "B" f32_half) fresh predict_zeros_B eq_refl).
Defined.

(** X6 on a valid request followed by the body [{}]. *)
Lemma predict_all_calls_two :
  Forall (fun x => shape x = expected_shape) (model_calls fresh) /\
  Forall (fun x => shape x = expected_shape)
    (model_calls (snd (predict_all np_array_nested (constant_model [f32_one]) letters
                         plain_percent plain_exc
                         [image_request (zeros [160; 160; 3]); empty_request] fresh))) /\
  List.length (fst (predict_all np_array_nested (constant_model [f32_one]) letters
                      plain_percent plain_exc
                      [image_request (zeros [160; 160; 3]); empty_request] fresh)) = 2.
Proof.
  assert (H0 : Forall (fun x => shape x = expected_shape) (model_calls fresh))
    by constructor.
  split; [exact H0|].
  destruct (predict_all_calls np_array_nested (constant_model [f32_one]) letters
              plain_percent plain_exc
              [image_request (zeros [160; 160; 3]); empty_request] fresh H0)
    as (Hall & _ & Hlen & _).
  split; [exact Hall | exact Hlen].
Defined.

(** X10 on a row whose second score is NaN. *)
Lemma predict_nan_score_second :
  read_image np_array_nested (image_request (zeros [160; 160; 3])) =
    OK (zero_array [160; 160; 3]) /\
  first_nan [f32_half; S754_nan; f32_one] = Some 1 /\
  fst (predict np_array_nested (constant_model [f32_half; S754_nan; f32_one])
         letters plain_percent plain_exc
         (image_request (zeros [160; 160; 3])) fresh) =
    OK (success "B" S754_nan).
Proof.
  split; [exact read_zeros_3|]. split; [reflexivity|].
  exact (proj1 (predict_nan_score np_array_nested
                  (constant_model [f32_half; S754_nan; f32_one]) letters
                  plain_percent plain_exc (image_request (zeros [160; 160; 3]))
                  (zero_array [160; 160; 3]) [f32_half; S754_nan; f32_one] [] 1
                  fresh read_zeros_3 zeros_3_expected eq_refl eq_refl)).
Defined.

(** X11 at position 5 of a table of three labels. *)
Lemma resolve_label_marker_inj_5 :
  List.length letters <= 5 /\
  resolve_label letters 5 = "UNKNOWN_CLASS_5" /\
  5 = 5.
Proof.
  split; [simpl; lia|]. split; [reflexivity|].
  apply (resolve_label_marker_inj letters 5 5); [simpl; lia | simpl; lia | reflexivity].
Defined.

(** X14 at the shape (2, 2). *)
Lemma shape_error_inj_matrix :
  shape_error [2; 2] = "Invalid input shape. Expected (1, 160, 160, 3), got (2, 2)" /\
  [2; 2] = [2; 2].
Proof.
  split; [reflexivity|].
  apply (shape_error_inj [2; 2] [2; 2]). reflexivity.
Defined.
